(** * Red Pitaya oscilloscope driver ([jupyter/redpitaya/drv/osc.py])

    A shallow embedding of the [osc] class: the register block reached
    through a numpy record, the circular sample table, and the property
    getters and setters that convert between physical units and register
    counts.

    Conventions of the embedding.
    - Python [int] is [Z]; Python [float] is idealised as an exact rational
      [Q] (no rounding, no infinities, no NaN).
    - The register block is the mapped memory: a function from byte offset
      to 32-bit word.  A field is found by its name in [regset_dtype], as
      numpy does, so an attribute that is not a field raises
      [AttributeError].
    - A method is a computation in a state-and-exception monad over the
      object; what was written before an exception stays written.
    - [bus] is ghost state: the register writes issued so far, oldest
      first. *)

From Stdlib Require Import ZArith QArith Qround Qabs List String Bool Lia.
From Stdlib Require Import Permutation Lqa.
Import ListNotations.
Local Open Scope string_scope.
Local Open Scope list_scope.
Local Open Scope Z_scope.

Module Osc.

(** ** Class constants *)

Definition FS : Q := 125000000.
Definition DW : Z := 16.
Definition DWr : Z := Z.shiftl 1 (DW - 1) - 1.
Definition N : Z := 2 ^ 14.

Definition CTL_STR_MASK : Z := Z.shiftl 1 1.
Definition CTL_RST_MASK : Z := Z.shiftl 1 0.

Definition edges : list (string * Z) :=
  [ ("positive", 0); ("negative", 1);
    ("pos", 0);      ("neg", 1);
    ("p", 0);        ("n", 1);
    ("+", 0);        ("-", 1) ].

Definition ranges : list Q := [1%Q; 20%Q].

Definition filters : list (Q * (Z * Z * Z * Z)) :=
  [ (1%Q,  (0x7D93, 0x437C7, 0xd9999a, 0x2666));
    (20%Q, (0x4C5F, 0x2F38B, 0xd9999a, 0x2666)) ].

Inductive ctype := uint32 | int32.

Definition regset_dtype : list (string * ctype) :=
  [ ("ctl_sts", uint32); ("rsv_001", uint32);
    ("irq_ena", uint32); ("irq_sts", uint32);
    ("cfg_rst", uint32); ("cfg_str", uint32);
    ("cfg_stp", uint32); ("cfg_trg", uint32);
    ("cfg_pre", uint32); ("cfg_pst", uint32);
    ("sts_pre", uint32); ("sts_pst", uint32);
    ("cfg_neg", int32);  ("cfg_pos", int32);
    ("cfg_edg", uint32); ("cfg_hld", uint32);
    ("cfg_dec", uint32); ("cfg_shr", uint32); ("cfg_avg", uint32);
    ("cfg_byp", uint32);
    ("cfg_faa", int32);  ("cfg_fbb", int32);
    ("cfg_fkk", int32);  ("cfg_fpp", int32) ].

(** Names bound at module level by the [import] statements. *)
Definition module_globals : list string := ["os"; "fcntl"; "mmap"; "np"].

(** ** Python and numpy primitives *)

Inductive exn :=
| ValueError | IndexError | AttributeError | NameError | KeyError.

(** [int(x)] of a float, also the conversion numpy applies when a float is
    assigned to an integer field: truncation toward zero. *)
Definition py_int (x : Q) : Z := Z.quot (Qnum x) (Z.pos (Qden x)).

(** [x in t] for a tuple of numbers: comparison by [==]. *)
Definition py_in (x : Q) (t : list Q) : bool := existsb (Qeq_bool x) t.

(** [d[k]] for a dict with numeric keys. *)
Definition dict_get_num {V} (d : list (Q * V)) (k : Q) : option V :=
  option_map snd (find (fun kv => Qeq_bool k (fst kv)) d).

(** [d[k]] / [k in d] for a dict with string keys. *)
Definition dict_get_str {V} (d : list (string * V)) (k : string) : option V :=
  option_map snd (find (fun kv => String.eqb k (fst kv)) d).

(** Addition of two [uint32] scalars, wrap-around included. *)
Definition u32_add (a b : Z) : Z := (a + b) mod 2 ^ 32.

(** The 32-bit pattern stored for an integer written to a field. *)
Definition encode (v : Z) : Z := v mod 2 ^ 32.

(** The value read from a field holding pattern [w]. *)
Definition decode (t : ctype) (w : Z) : Z :=
  let u := w mod 2 ^ 32 in
  match t with
  | uint32 => u
  | int32 => if u <? 2 ^ 31 then u else u - 2 ^ 32
  end.

(** [dtype.fields.get(attr)]: type and byte offset of a field. *)
Fixpoint fields_get (attr : string) (dt : list (string * ctype)) (off : Z)
  : option (ctype * Z) :=
  match dt with
  | [] => None
  | (name, t) :: dt' =>
      if String.eqb attr name then Some (t, off)
      else fields_get attr dt' (off + 4)
  end.

(** [np.roll(a, shift)] of a one-dimensional array. *)
Definition np_roll {A} (a : list A) (shift : Z) : list A :=
  let n := Z.of_nat (List.length a) in
  if n =? 0 then a
  else
    let k := Z.to_nat (n - shift mod n) in
    skipn k a ++ firstn k a.

(** The slice [l[start:]]. *)
Definition py_slice_from {A} (start : Z) (l : list A) : list A :=
  let len := Z.of_nat (List.length l) in
  let lo := if start <? 0 then Z.max (start + len) 0 else Z.min start len in
  skipn (Z.to_nat lo) l.

(** [astype('float32')] of an [int16] slot (exact). *)
Definition astype_float32 (raw : Z) : Q := inject_Z raw.

(** ** Object state and the method monad *)

Record osc := mkOsc {
  regset : Z -> Z;              (* uio_reg, word at each byte offset *)
  bus : list (string * Z);      (* register writes issued, oldest first *)
  table : list Z;               (* uio_tbl viewed as int16 *)
  input_range_ : option Q       (* self.__input_range, None until assigned *)
}.

Inductive outcome (A : Type) :=
| Return (a : A)
| Raise (e : exn).
Arguments Return {A} a.
Arguments Raise {A} e.

Definition M (A : Type) : Type := osc -> outcome A * osc.

Definition ret {A} (a : A) : M A := fun s => (Return a, s).
Definition raise {A} (e : exn) : M A := fun s => (Raise e, s).
Definition bind {A B} (c : M A) (k : A -> M B) : M B :=
  fun s =>
    match c s with
    | (Return a, s') => k a s'
    | (Raise e, s') => (Raise e, s')
    end.

Notation "x <- c ;; k" := (bind c (fun x => k))
  (at level 61, c at next level, right associativity).
Notation "c ;; k" := (bind c (fun _ => k))
  (at level 61, right associativity).

(** [record.getfield] and [record.setfield] at a byte offset. *)
Definition getfield (t : ctype) (off : Z) (s : osc) : Z :=
  decode t (regset s off).

Definition setfield (attr : string) (off v : Z) (s : osc) : osc :=
  mkOsc (fun a => if a =? off then encode v else regset s a)
        (bus s ++ [(attr, encode v)])
        (table s) (input_range_ s).

(** [self.regset.attr] *)
Definition getreg (attr : string) : M Z :=
  fun s =>
    match fields_get attr regset_dtype 0 with
    | Some (t, off) => (Return (getfield t off s), s)
    | None => (Raise AttributeError, s)
    end.

(** [self.regset.attr = v] *)
Definition setreg (attr : string) (v : Z) : M unit :=
  fun s =>
    match fields_get attr regset_dtype 0 with
    | Some (_, off) => (Return tt, setfield attr off v s)
    | None => (Raise AttributeError, s)
    end.

(** Evaluation of a global name. *)
Definition load_global (name : string) : M unit :=
  if existsb (String.eqb name) module_globals then ret tt else raise NameError.

(** ["...".format(args)] with [fields] auto-numbered replacement fields. *)
Definition str_format (fields args : nat) : M unit :=
  if (fields <=? args)%nat then ret tt else raise IndexError.

(** ** Methods *)

Definition input_range : M Q :=
  fun s =>
    match input_range_ s with
    | Some r => (Return r, s)
    | None => (Raise AttributeError, s)
    end.

(** [self.__input_range = value] *)
Definition assign_input_range (value : Q) : M unit :=
  fun s => (Return tt, mkOsc (regset s) (bus s) (table s) (Some value)).

Definition filter_coeficients : M (Z * Z * Z * Z) :=
  a <- getreg "cfg_faa" ;;
  b <- getreg "cfg_fbb" ;;
  k <- getreg "cfg_fkk" ;;
  p <- getreg "cfg_fpp" ;;
  ret (a, b, k, p).

Definition set_filter_coeficients (value : Z * Z * Z * Z) : M unit :=
  let '(v0, v1, v2, v3) := value in
  setreg "cfg_faa" v0 ;;
  setreg "cfg_fbb" v1 ;;
  setreg "cfg_fkk" v2 ;;
  setreg "cfg_fpp" v3.

Definition set_input_range (value : Q) : M unit :=
  if py_in value ranges then
    assign_input_range value ;;
    match dict_get_num filters value with
    | Some f => set_filter_coeficients f
    | None => raise KeyError
    end
  else
    str_format 1 1 ;; raise ValueError.

(** The part of [__init__] that follows the mapping of the two regions. *)
Definition init (regs : Z -> Z) (tbl : list Z) (input_range : Q)
  : outcome unit * osc :=
  set_input_range input_range (mkOsc regs [] tbl None).

Definition reset : M unit := setreg "ctl_sts" CTL_RST_MASK.
Definition start : M unit := setreg "ctl_sts" CTL_STR_MASK.

Definition status_run : M bool :=
  c <- getreg "ctl_sts" ;; ret (negb (Z.land c CTL_STR_MASK =? 0)).


Definition decimation : M Z :=
  d <- getreg "cfg_dec" ;; ret (u32_add d 1).

Definition set_decimation (value : Z) : M unit :=
  setreg "cfg_dec" (value - 1).

Definition sample_rate : M Q :=
  d <- decimation ;; ret (FS / inject_Z d)%Q.

Definition sample_period : M Q :=
  r <- sample_rate ;; ret (1 / r)%Q.


Definition in_unit (v : Q) : bool := Qle_bool (-1) v && Qle_bool v 1.

Definition set_level (value : Q * Q) : M unit :=
  r <- input_range ;;
  let scale := (inject_Z DWr / r)%Q in
  (if in_unit (fst value) then
     setreg "cfg_neg" (py_int (fst value * scale))
   else
     str_format 2 1 ;; raise ValueError) ;;
  (if in_unit (snd value) then
     setreg "cfg_pos" (py_int (snd value * scale))
   else
     str_format 2 1 ;; raise ValueError).

Definition edge : M string :=
  e <- getreg "cfg_edg" ;;
  match nth_error ["pos"; "neg"] (Z.to_nat e) with
  | Some name => ret name
  | None => raise IndexError
  end.

Definition set_edge (value : string) : M unit :=
  match dict_get_str edges value with
  | Some code => setreg "cfg_edg" code
  | None => str_format 1 1 ;; raise ValueError
  end.

Definition average : M bool :=
  a <- getreg "cfg_avg" ;; ret (negb (a =? 0)).

Definition set_average (value : bool) : M unit :=
  setreg "cfg_avg" (if value then 1 else 0) ;;
  load_global "math" ;;
  d <- decimation ;;
  (if d <=? 0 then raise ValueError else setreg "cfg_shr" (Z.log2_up d)).

Definition filter_bypass : M bool :=
  b <- getreg "cfg_byp" ;; ret (negb (b =? 0)).

Definition set_filter_bypass (value : bool) : M unit :=
  if value then setreg "cfg_byp" 0x1 else setreg "cfg_mod" 0x0.

(** [self.table] *)
Definition self_table : M (list Z) := fun s => (Return (table s), s).

Definition pointer : M Z :=
  pre <- getreg "sts_pre" ;;
  pst <- getreg "sts_pst" ;;
  let cnt := u32_add (Z.land pre 0x7fffffff) (Z.land pst 0x7fffffff) in
  let adr := cnt mod N in
  ret adr.

Definition data (siz : Z) (ptr : option Z) : M (list Q) :=
  ptr <- match ptr with
         | None => pointer
         | Some p => ret p
         end ;;
  let adr := (N + ptr - siz) mod N in
  tbl <- self_table ;;
  let table := np_roll tbl (- ptr) in
  r <- input_range ;;
  ret (map (fun x => x * (r / inject_Z DWr))%Q
           (py_slice_from (- siz) (map astype_float32 table))).

(** [value[i]] on a tuple or list, for a non-negative index. *)
Definition py_index {A} (value : list A) (i : nat) : M A :=
  match nth_error value i with
  | Some x => ret x
  | None => raise IndexError
  end.

Definition mask : M (list Z) :=
  rst <- getreg "cfg_rst" ;;
  str <- getreg "cfg_str" ;;
  stp <- getreg "cfg_stp" ;;
  trg <- getreg "cfg_trg" ;;
  ret [rst; str; stp; trg].

Definition set_mask (value : list Z) : M unit :=
  v0 <- py_index value 0 ;; setreg "cfg_rst" v0 ;;
  v1 <- py_index value 1 ;; setreg "cfg_str" v1 ;;
  v2 <- py_index value 2 ;; setreg "cfg_stp" v2 ;;
  v3 <- py_index value 3 ;; setreg "cfg_trg" v3.





Definition trigger_pre_status : M Q :=
  c <- getreg "sts_pre" ;;
  p <- sample_period ;;
  ret (inject_Z c * p)%Q.

Definition trigger_post_status : M Q :=
  c <- getreg "sts_pst" ;;
  p <- sample_period ;;
  ret (inject_Z c * p)%Q.

Definition holdoff : M Z := getreg "cfg_hld".

Definition set_holdoff (value : Z) : M unit := setreg "cfg_hld" value.

(** ** Reference definitions and example objects *)



(** The raw slot of the circular buffer at index [i]. *)
Definition slot (s : osc) (i : Z) : Z := nth (Z.to_nat i) (table s) 0.

(** A freshly mapped device: every register and every slot zero. *)
Definition blank_regs : Z -> Z := fun _ => 0.
Definition blank_table : list Z := repeat 0 (Z.to_nat N).

(** An object on the 1 V range over blank regions. *)
Definition osc_1V : osc := snd (init blank_regs blank_table 1).

(** The same object with slots 4..7 holding 100, -200, 300, -400. *)
Definition osc_ramp : osc :=
  mkOsc (regset osc_1V) (bus osc_1V)
        (repeat 0 4 ++ [100; -200; 300; -400] ++ repeat 0 (Z.to_nat N - 8))
        (input_range_ osc_1V).

(** The same object after the hardware has counted 5 pre-trigger samples
    with the overflow flag raised, and 3 post-trigger samples. *)
Definition osc_counted : osc :=
  mkOsc (fun a => if a =? 40 then 0x80000005
                  else if a =? 44 then 3 else regset osc_1V a)
        (bus osc_1V) (table osc_1V) (input_range_ osc_1V).

(** The object holds one of the two supported ranges. *)
Definition range_ok (s : osc) : Prop :=
  exists r, input_range_ s = Some r /\ (r == 1 \/ r == 20)%Q.

(** A 1 V object decimating by 8, and one whose edge register holds a
    code the driver never writes. *)
Definition osc_dec8 : osc := snd (set_decimation 8 osc_1V).
Definition osc_edge5 : osc := snd (setreg "cfg_edg" 5 osc_1V).

(** ** Register access *)

Arguments encode : simpl never.
Arguments decode : simpl never.

Lemma getreg_at attr t off s :
  fields_get attr regset_dtype 0 = Some (t, off) ->
  getreg attr s = (Return (getfield t off s), s).
Proof. intros H. unfold getreg. now rewrite H. Qed.

Lemma setreg_at attr t off v s :
  fields_get attr regset_dtype 0 = Some (t, off) ->
  setreg attr v s = (Return tt, setfield attr off v s).
Proof. intros H. unfold setreg. now rewrite H. Qed.

Lemma getfield_setfield_same t attr off v s :
  getfield t off (setfield attr off v s) = decode t (encode v).
Proof. unfold getfield, setfield; cbn. now rewrite Z.eqb_refl. Qed.

Lemma getfield_setfield_other t attr off off' v s :
  off' <> off ->
  getfield t off' (setfield attr off v s) = getfield t off' s.
Proof.
  intros H. unfold getfield, setfield; cbn.
  destruct (Z.eqb_spec off' off); [contradiction | reflexivity].
Qed.

Lemma decode_encode_uint32 v :
  0 <= v < 2 ^ 32 -> decode uint32 (encode v) = v.
Proof.
  intros H. unfold decode, encode.
  rewrite Z.mod_mod by lia. now apply Z.mod_small.
Qed.

Lemma decode_encode_int32 v :
  - 2 ^ 31 <= v < 2 ^ 31 -> decode int32 (encode v) = v.
Proof.
  intros H. unfold decode, encode.
  rewrite Z.mod_mod by lia.
  destruct (Z_lt_le_dec v 0) as [Hneg | Hpos].
  - replace (v mod 2 ^ 32) with (v + 2 ^ 32).
    + destruct (Z.ltb_spec (v + 2 ^ 32) (2 ^ 31)); lia.
    + apply Z.mod_unique with (q := -1); lia.
  - rewrite Z.mod_small by lia.
    destruct (Z.ltb_spec v (2 ^ 31)); lia.
Qed.

Lemma decode_uint32_range w : 0 <= decode uint32 w < 2 ^ 32.
Proof. unfold decode. apply Z.mod_pos_bound. lia. Qed.

(** Stepping a computation through one [bind]. *)
Lemma bind_Return {A B} (c : M A) (k : A -> M B) s a s' :
  c s = (Return a, s') -> bind c k s = k a s'.
Proof. intros H. unfold bind. now rewrite H. Qed.

Lemma bind_Raise {A B} (c : M A) (k : A -> M B) s e s' :
  c s = (Raise e, s') -> bind c k s = (Raise e, s').
Proof. intros H. unfold bind. now rewrite H. Qed.

Ltac step :=
  first
    [ erewrite bind_Return by (first [ apply getreg_at | apply setreg_at ];
                               reflexivity)
    | erewrite bind_Return by reflexivity
    | erewrite getreg_at by reflexivity
    | erewrite setreg_at by reflexivity ].

(** ** The write pointer *)

Lemma masked_sum_no_wrap a b :
  u32_add (Z.land a 0x7fffffff) (Z.land b 0x7fffffff)
  = Z.land a 0x7fffffff + Z.land b 0x7fffffff.
Proof.
  assert (Hm : forall x, 0 <= Z.land x 0x7fffffff < 2 ^ 31).
  { intro x. change 0x7fffffff with (Z.ones 31).
    rewrite Z.land_ones by lia. apply Z.mod_pos_bound. lia. }
  unfold u32_add. apply Z.mod_small.
  pose proof (Hm a). pose proof (Hm b). lia.
Qed.

(** C2. Whatever the two status counters read, [pointer] is the sum of the
    two counters with their top (overflow) bit masked out, taken modulo
    16384; with [sts_pre = 0x80000005] and [sts_pst = 3] it is 8. *)
Theorem pointer_masks_overflow s pre pst :
  getreg "sts_pre" s = (Return pre, s) ->
  getreg "sts_pst" s = (Return pst, s) ->
  pointer s
  = (Return ((Z.land pre 0x7fffffff + Z.land pst 0x7fffffff) mod 16384), s)
  /\ (pre = 0x80000005 -> pst = 3 -> pointer s = (Return 8, s)).
Proof.
  intros Hpre Hpst.
  assert (E : pointer s
    = (Return ((Z.land pre 0x7fffffff + Z.land pst 0x7fffffff) mod 16384), s)).
  { unfold pointer.
    rewrite (bind_Return _ _ _ _ _ Hpre), (bind_Return _ _ _ _ _ Hpst).
    rewrite masked_sum_no_wrap. reflexivity. }
  split; [exact E |].
  intros -> ->. rewrite E. reflexivity.
Qed.

Lemma pointer_masks_overflow_witness :
  pointer osc_counted = (Return 8, osc_counted).
Proof.
  apply (pointer_masks_overflow osc_counted 0x80000005 3);
    reflexivity.
Defined.

(** ** Decimation *)

Lemma u32_add_pred d : 1 <= d <= 2 ^ 32 - 1 -> u32_add (d - 1) 1 = d.
Proof.
  intros H. unfold u32_add.
  replace (d - 1 + 1) with d by lia. apply Z.mod_small. lia.
Qed.

(** C5. For a decimation factor [d] in [1, 2^17], the setter stores [d - 1]
    in [cfg_dec], the getter returns [d], [sample_rate] is [FS / d] with
    [FS = 125000000], and [sample_period] is [1 / sample_rate]. *)
Theorem decimation_roundtrip s d :
  1 <= d <= 2 ^ 17 ->
  exists s',
    set_decimation d s = (Return tt, s')
    /\ getreg "cfg_dec" s' = (Return (d - 1), s')
    /\ decimation s' = (Return d, s')
    /\ FS = 125000000%Q
    /\ sample_rate s' = (Return (FS / inject_Z d)%Q, s')
    /\ sample_period s' = (Return (1 / (FS / inject_Z d))%Q, s').
Proof.
  intros Hd. unfold set_decimation. step. eexists. split; [reflexivity |].
  assert (Hreg : getreg "cfg_dec" (setfield "cfg_dec" 64 (d - 1) s)
                 = (Return (d - 1), setfield "cfg_dec" 64 (d - 1) s)).
  { step. rewrite getfield_setfield_same, decode_encode_uint32 by lia.
    reflexivity. }
  assert (Hdec : decimation (setfield "cfg_dec" 64 (d - 1) s)
                 = (Return d, setfield "cfg_dec" 64 (d - 1) s)).
  { unfold decimation. rewrite (bind_Return _ _ _ _ _ Hreg).
    unfold ret. rewrite u32_add_pred by lia. reflexivity. }
  assert (Hrate : sample_rate (setfield "cfg_dec" 64 (d - 1) s)
                  = (Return (FS / inject_Z d)%Q,
                     setfield "cfg_dec" 64 (d - 1) s)).
  { unfold sample_rate. rewrite (bind_Return _ _ _ _ _ Hdec). reflexivity. }
  repeat split; try assumption.
  unfold sample_period. rewrite (bind_Return _ _ _ _ _ Hrate). reflexivity.
Qed.

Lemma decimation_roundtrip_witness :
  exists s',
    set_decimation 8 osc_1V = (Return tt, s')
    /\ getreg "cfg_dec" s' = (Return (8 - 1), s')
    /\ decimation s' = (Return 8, s')
    /\ FS = 125000000%Q
    /\ sample_rate s' = (Return (FS / inject_Z 8)%Q, s')
    /\ sample_period s' = (Return (1 / (FS / inject_Z 8))%Q, s').
Proof. apply (decimation_roundtrip osc_1V 8). lia. Defined.

(** ** Trigger edge *)

(** C6. The four positive aliases store code 0 in [cfg_edg], the four
    negative aliases store code 1, and every other string raises
    [ValueError] and leaves the object, registers included, as it was. *)
Theorem set_edge_aliases s value :
  (In value ["positive"; "pos"; "p"; "+"] ->
   exists s',
     set_edge value s = (Return tt, s')
     /\ bus s' = bus s ++ [("cfg_edg", 0)]
     /\ getreg "cfg_edg" s' = (Return 0, s'))
  /\ (In value ["negative"; "neg"; "n"; "-"] ->
      exists s',
        set_edge value s = (Return tt, s')
        /\ bus s' = bus s ++ [("cfg_edg", 1)]
        /\ getreg "cfg_edg" s' = (Return 1, s'))
  /\ (~ In value ["positive"; "pos"; "p"; "+";
                  "negative"; "neg"; "n"; "-"] ->
      set_edge value s = (Raise ValueError, s)).
Proof.
  split; [| split].
  - intros H. cbn in H.
    destruct H as [<- | [<- | [<- | [<- | []]]]];
      (eexists; split; [reflexivity | split; reflexivity]).
  - intros H. cbn in H.
    destruct H as [<- | [<- | [<- | [<- | []]]]];
      (eexists; split; [reflexivity | split; reflexivity]).
  - intros H. unfold set_edge, dict_get_str, edges, find. cbn [fst].
    repeat match goal with
           | |- context [String.eqb value ?k] =>
               destruct (String.eqb_spec value k) as [-> | _];
               [exfalso; apply H; cbn; tauto |]
           end.
    reflexivity.
Qed.

Lemma set_edge_aliases_witness :
  (exists s',
     set_edge "+" osc_1V = (Return tt, s')
     /\ bus s' = bus osc_1V ++ [("cfg_edg", 0)]
     /\ getreg "cfg_edg" s' = (Return 0, s'))
  /\ (exists s',
        set_edge "neg" osc_1V = (Return tt, s')
        /\ bus s' = bus osc_1V ++ [("cfg_edg", 1)]
        /\ getreg "cfg_edg" s' = (Return 1, s'))
  /\ set_edge "rising" osc_1V = (Raise ValueError, osc_1V).
Proof.
  split; [| split].
  - apply (proj1 (set_edge_aliases osc_1V "+")). cbn. tauto.
  - apply (proj1 (proj2 (set_edge_aliases osc_1V "neg"))). cbn. tauto.
  - apply (proj2 (proj2 (set_edge_aliases osc_1V "rising"))).
    cbn. intros H.
    repeat (destruct H as [H | H]; [discriminate H |]). exact H.
Defined.

(** ** Filter bypass *)

(** C7. Disabling the bypass assigns the attribute [cfg_mod], which is not
    a field of the register block: the assignment raises [AttributeError]
    and writes nothing, so after enabling and then disabling the bypass
    the flag still reads true. *)
Theorem set_filter_bypass_false_raises s :
  set_filter_bypass false s = (Raise AttributeError, s)
  /\ (let s1 := snd (set_filter_bypass true s) in
      set_filter_bypass false s1 = (Raise AttributeError, s1)
      /\ filter_bypass s1 = (Return true, s1)).
Proof. repeat split. Qed.

(** ** Averaging *)

(** C8. Enabling averaging writes [cfg_avg] and then fails on the name
    [math], which the module never imports: [NameError] is raised and
    [cfg_shr] is not written, whatever the decimation. *)
Theorem set_average_raises s value :
  exists s',
    set_average value s = (Raise NameError, s')
    /\ bus s' = bus s ++ [("cfg_avg", if value then 1 else 0)]
    /\ getreg "cfg_avg" s' = (Return (if value then 1 else 0), s')
    /\ fst (getreg "cfg_shr" s') = fst (getreg "cfg_shr" s).
Proof.
  unfold set_average. step. eexists. split; [reflexivity |].
  destruct value; repeat split.
Qed.

(** ** Input range and filter coefficients *)

Lemma py_in_ranges value :
  py_in value ranges = Qeq_bool value 1 || Qeq_bool value 20.
Proof. unfold py_in, ranges, existsb. now rewrite orb_false_r. Qed.







(** ** Run control against the register block read back as written *)

Lemma start_then_status_run s :
  status_run (snd (start s)) = (Return true, snd (start s)).
Proof. reflexivity. Qed.

Lemma reset_then_status_run s :
  status_run (snd (reset s)) = (Return false, snd (reset s)).
Proof. reflexivity. Qed.

(** ** The sample window *)

Lemma np_roll_length {A} (a : list A) shift :
  List.length (np_roll a shift) = List.length a.
Proof.
  unfold np_roll. destruct (Z.eqb_spec (Z.of_nat (List.length a)) 0) as [|Hn];
    [reflexivity |].
  rewrite length_app, length_skipn, length_firstn. lia.
Qed.

(** Element [i] of the array rolled by [-p] is element [(i + p) mod n]. *)
Lemma np_roll_nth_error {A} (a : list A) (p : Z) (i : nat) :
  (i < List.length a)%nat ->
  nth_error (np_roll a (- p)) i
  = nth_error a (Z.to_nat ((Z.of_nat i + p) mod Z.of_nat (List.length a))).
Proof.
  intros Hi. unfold np_roll.
  set (n := Z.of_nat (List.length a)).
  assert (Hn : 0 < n) by (subst n; lia).
  destruct (Z.eqb_spec n 0) as [|_]; [lia |].
  pose proof (Z.mod_pos_bound (- p) n Hn) as Hm.
  pose proof (Z.div_mod (- p) n ltac:(lia)) as Hdiv.
  set (m := (- p) mod n) in *. set (q := (- p) / n) in *.
  destruct (Nat.lt_ge_cases i (List.length a - Z.to_nat (n - m))) as [Hlo | Hhi].
  - rewrite nth_error_app1 by (rewrite length_skipn; exact Hlo).
    rewrite nth_error_skipn. f_equal.
    replace ((Z.of_nat i + p) mod n) with (Z.of_nat i + n - m).
    + subst n. lia.
    + apply Z.mod_unique with (q := - q - 1); subst n; lia.
  - rewrite nth_error_app2 by (rewrite length_skipn; exact Hhi).
    rewrite length_skipn, nth_error_firstn.
    destruct (Nat.ltb_spec (i - (List.length a - Z.to_nat (n - m)))
                           (Z.to_nat (n - m))) as [_ | Hge];
      [| subst n; lia].
    f_equal.
    replace ((Z.of_nat i + p) mod n) with (Z.of_nat i - m).
    + subst n. lia.
    + apply Z.mod_unique with (q := - q); subst n; lia.
Qed.

Lemma py_slice_tail {A} (l : list A) siz :
  0 < siz <= Z.of_nat (List.length l) ->
  py_slice_from (- siz) l = skipn (List.length l - Z.to_nat siz) l.
Proof.
  intros H. unfold py_slice_from.
  destruct (Z.ltb_spec (- siz) 0); [| lia]. f_equal. lia.
Qed.

Lemma py_slice_over {A} (l : list A) siz :
  Z.of_nat (List.length l) < siz -> py_slice_from (- siz) l = l.
Proof.
  intros H. unfold py_slice_from.
  destruct (Z.ltb_spec (- siz) 0); [| lia].
  replace (Z.to_nat (Z.max (- siz + Z.of_nat (List.length l)) 0)) with 0%nat
    by lia.
  reflexivity.
Qed.

Lemma data_eval s r siz ptr :
  input_range_ s = Some r ->
  data siz (Some ptr) s
  = (Return (map (fun x => x * (r / inject_Z DWr))%Q
               (py_slice_from (- siz)
                  (map astype_float32 (np_roll (table s) (- ptr))))), s).
Proof.
  intros Hr. unfold data, bind, ret, self_table, input_range.
  now rewrite Hr.
Qed.

(** With no explicit pointer, [data] reads at the hardware pointer. *)
Lemma data_default_pointer s siz p :
  pointer s = (Return p, s) -> data siz None s = data siz (Some p) s.
Proof.
  intros Hp. unfold data.
  rewrite (bind_Return _ _ _ _ _ Hp). reflexivity.
Qed.

(** Element [i] of the scaled, rolled table. *)
Lemma rolled_scaled_nth s (f : Q -> Q) ptr (j : nat) :
  (j < List.length (table s))%nat ->
  nth_error (map f (map astype_float32 (np_roll (table s) (- ptr)))) j
  = Some (f (inject_Z
               (slot s ((Z.of_nat j + ptr)
                          mod Z.of_nat (List.length (table s)))))).
Proof.
  intros Hj. rewrite !nth_error_map, np_roll_nth_error by exact Hj.
  unfold slot.
  rewrite nth_error_nth' with (d := 0).
  - reflexivity.
  - pose proof (Z.mod_pos_bound (Z.of_nat j + ptr)
                  (Z.of_nat (List.length (table s))) ltac:(lia)).
    lia.
Qed.

Lemma data_window s r siz ptr :
  List.length (table s) = Z.to_nat N ->
  input_range_ s = Some r ->
  0 < siz <= N ->
  exists out,
    data siz (Some ptr) s = (Return out, s)
    /\ Z.of_nat (List.length out) = siz
    /\ forall i, 0 <= i < siz ->
         nth_error out (Z.to_nat i)
         = Some (inject_Z (slot s ((ptr - siz + i) mod N))
                 * (r / inject_Z DWr))%Q.
Proof.
  intros Hlen Hr Hsiz.
  assert (HN : Z.of_nat (List.length (table s)) = N)
    by (rewrite Hlen; unfold N; lia).
  rewrite (data_eval s r siz ptr Hr). eexists. split; [reflexivity |].
  rewrite py_slice_tail
    by (rewrite length_map, np_roll_length; lia).
  split.
  - repeat rewrite ?length_map, ?length_skipn, ?np_roll_length. lia.
  - intros i Hi.
    rewrite length_map, np_roll_length, <- skipn_map, nth_error_skipn.
    rewrite rolled_scaled_nth by lia.
    rewrite HN.
    replace (Z.of_nat (List.length (table s) - Z.to_nat siz + Z.to_nat i) + ptr)
      with (ptr - siz + i + 1 * N) by lia.
    rewrite Z.mod_add by (unfold N; lia). reflexivity.
Qed.

(** C1. For [0 < size <= N] and a pointer in [[0, N)], [data] returns
    exactly [size] values, oldest first; value [i] is the raw slot at index
    [(pointer - size + i) mod N] times [input_range / DWr].  On a buffer
    whose slots 4..7 hold 100, -200, 300, -400, with range 1.0,
    [data(4, 8)] is those four values times [1/32767], in that order. *)
Theorem data_is_window_before_pointer :
  (forall s r siz ptr,
     List.length (table s) = Z.to_nat N ->
     input_range_ s = Some r ->
     0 < siz <= N ->
     0 <= ptr < N ->
     N = 16384 /\
     exists out,
       data siz (Some ptr) s = (Return out, s)
       /\ Z.of_nat (List.length out) = siz
       /\ forall i, 0 <= i < siz ->
            nth_error out (Z.to_nat i)
            = Some (inject_Z (slot s ((ptr - siz + i) mod N))
                    * (r / inject_Z DWr))%Q)
  /\ (forall s,
        List.length (table s) = Z.to_nat N ->
        input_range_ s = Some 1%Q ->
        slot s 4 = 100 -> slot s 5 = -200 ->
        slot s 6 = 300 -> slot s 7 = -400 ->
        data 4 (Some 8) s
        = (Return [ 100 * (1 / 32767); -200 * (1 / 32767);
                    300 * (1 / 32767); -400 * (1 / 32767) ]%Q, s)).
Proof.
  split.
  - intros s r siz ptr Hlen Hr Hsiz _. split; [reflexivity |].
    now apply data_window.
  - intros s Hlen Hr H4 H5 H6 H7.
    destruct (data_window s 1%Q 4 8 Hlen Hr ltac:(unfold N; lia))
      as (out & Hout & Hl & Hnth).
    rewrite Hout. do 2 f_equal.
    pose proof (Hnth 0 ltac:(lia)) as E0. pose proof (Hnth 1 ltac:(lia)) as E1.
    pose proof (Hnth 2 ltac:(lia)) as E2. pose proof (Hnth 3 ltac:(lia)) as E3.
    change ((8 - 4 + 0) mod N) with 4 in E0.
    change ((8 - 4 + 1) mod N) with 5 in E1.
    change ((8 - 4 + 2) mod N) with 6 in E2.
    change ((8 - 4 + 3) mod N) with 7 in E3.
    rewrite H4 in E0. rewrite H5 in E1. rewrite H6 in E2. rewrite H7 in E3.
    destruct out as [| a [| b [| c [| d [| e out]]]]]; cbn in Hl; try lia.
    cbn in E0, E1, E2, E3.
    injection E0 as ->. injection E1 as ->.
    injection E2 as ->. injection E3 as ->.
    reflexivity.
Qed.

Lemma data_is_window_before_pointer_witness :
  (N = 16384 /\
   exists out,
     data 6 (Some 2) osc_ramp = (Return out, osc_ramp)
     /\ Z.of_nat (List.length out) = 6
     /\ forall i, 0 <= i < 6 ->
          nth_error out (Z.to_nat i)
          = Some (inject_Z (slot osc_ramp ((2 - 6 + i) mod N))
                  * (1 / inject_Z DWr))%Q)
  /\ data 4 (Some 8) osc_ramp
     = (Return [ 100 * (1 / 32767); -200 * (1 / 32767);
                 300 * (1 / 32767); -400 * (1 / 32767) ]%Q, osc_ramp).
Proof.
  split.
  - apply (proj1 data_is_window_before_pointer osc_ramp 1%Q 6 2);
      [ reflexivity | reflexivity | unfold N; lia | unfold N; lia ].
  - apply (proj2 data_is_window_before_pointer osc_ramp); reflexivity.
Defined.

(** C10. For [size > N] and a pointer in [[0, N)], [data] raises nothing
    and returns the whole table rolled to end at the pointer and scaled:
    [N = min(size, N)] values, not [size]. *)
Theorem data_oversize_returns_whole_buffer s r siz ptr :
  List.length (table s) = Z.to_nat N ->
  input_range_ s = Some r ->
  N < siz ->
  0 <= ptr < N ->
  exists out,
    data siz (Some ptr) s = (Return out, s)
    /\ out = map (fun x => inject_Z x * (r / inject_Z DWr))%Q
               (np_roll (table s) (- ptr))
    /\ Z.of_nat (List.length out) = N
    /\ Z.of_nat (List.length out) = Z.min siz N
    /\ Z.of_nat (List.length out) <> siz
    /\ forall i, 0 <= i < N ->
         nth_error out (Z.to_nat i)
         = Some (inject_Z (slot s ((ptr - N + i) mod N))
                 * (r / inject_Z DWr))%Q.
Proof.
  intros Hlen Hr Hsiz _.
  assert (HN : Z.of_nat (List.length (table s)) = N)
    by (rewrite Hlen; unfold N; lia).
  rewrite (data_eval s r siz ptr Hr). eexists. split; [reflexivity |].
  rewrite py_slice_over
    by (rewrite length_map, np_roll_length; lia).
  assert (Hl : Z.of_nat
                 (List.length
                    (map (fun x => x * (r / inject_Z DWr))%Q
                       (map astype_float32 (np_roll (table s) (- ptr)))))
               = N)
    by (rewrite !length_map, np_roll_length; exact HN).
  split; [apply map_map |].
  split; [exact Hl |]. split; [lia |]. split; [lia |].
  intros i Hi. rewrite rolled_scaled_nth by lia.
  rewrite HN.
  replace (Z.of_nat (Z.to_nat i) + ptr) with (ptr - N + i + 1 * N) by lia.
  rewrite Z.mod_add by (unfold N; lia). reflexivity.
Qed.

Lemma data_oversize_returns_whole_buffer_witness :
  exists out,
    data 20000 (Some 8) osc_ramp = (Return out, osc_ramp)
    /\ out = map (fun x => inject_Z x * (1 / inject_Z DWr))%Q
               (np_roll (table osc_ramp) (- 8))
    /\ Z.of_nat (List.length out) = N
    /\ Z.of_nat (List.length out) = Z.min 20000 N
    /\ Z.of_nat (List.length out) <> 20000
    /\ forall i, 0 <= i < N ->
         nth_error out (Z.to_nat i)
         = Some (inject_Z (slot osc_ramp ((8 - N + i) mod N))
                 * (1 / inject_Z DWr))%Q.
Proof.
  apply (data_oversize_returns_whole_buffer osc_ramp 1%Q 20000 8);
    [ reflexivity | reflexivity | unfold N; lia | unfold N; lia ].
Defined.

(** ** Trigger level *)

Lemma in_unit_iff v : in_unit v = true <-> (-1 <= v <= 1)%Q.
Proof.
  unfold in_unit. rewrite andb_true_iff, !Qle_bool_iff. reflexivity.
Qed.

Lemma in_unit_false v : ~ (-1 <= v <= 1)%Q -> in_unit v = false.
Proof.
  intros H. destruct (in_unit v) eqn:E; [| reflexivity].
  apply in_unit_iff in E. contradiction.
Qed.











(** C3 (as the code has it). When either level is outside [[-1, 1]] the
    setter raises and [cfg_pos] is never written.  A negative level out of
    range leaves the object untouched; a negative level in range has
    already been written to [cfg_neg] when the positive level is
    rejected. *)
Theorem set_level_rejects_in_sequence s r v0 v1 :
  input_range_ s = Some r ->
  ~ (-1 <= v0 <= 1)%Q \/ ~ (-1 <= v1 <= 1)%Q ->
  exists e s',
    set_level (v0, v1) s = (Raise e, s')
    /\ fst (getreg "cfg_pos" s') = fst (getreg "cfg_pos" s)
    /\ (~ (-1 <= v0 <= 1)%Q -> s' = s)
    /\ ((-1 <= v0 <= 1)%Q ->
        let count := py_int (v0 * (inject_Z DWr / r)) in
        bus s' = bus s ++ [("cfg_neg", encode count)]
        /\ getreg "cfg_neg" s' = (Return (decode int32 (encode count)), s')).
Proof.
  intros Hs Hout.
  unfold set_level, bind, input_range. cbn [fst snd]. rewrite Hs.
  destruct (in_unit v0) eqn:E0.
  - assert (E1 : in_unit v1 = false).
    { apply in_unit_false. apply in_unit_iff in E0. tauto. }
    rewrite E1. cbn. do 2 eexists. split; [reflexivity |].
    split; [reflexivity |]. split.
    + intros H. apply in_unit_iff in E0. contradiction.
    + intros _. split; reflexivity.
  - cbn. do 2 eexists. split; [reflexivity |].
    split; [reflexivity |]. split; [reflexivity |].
    intros H. apply in_unit_iff in H. congruence.
Qed.

Lemma set_level_rejects_in_sequence_witness :
  exists e s',
    set_level (1 # 2, 2)%Q osc_1V = (Raise e, s')
    /\ fst (getreg "cfg_pos" s') = fst (getreg "cfg_pos" osc_1V)
    /\ (~ (-1 <= 1 # 2 <= 1)%Q -> s' = osc_1V)
    /\ ((-1 <= 1 # 2 <= 1)%Q ->
        let count := py_int ((1 # 2) * (inject_Z DWr / 1)) in
        bus s' = bus osc_1V ++ [("cfg_neg", encode count)]
        /\ getreg "cfg_neg" s' = (Return (decode int32 (encode count)), s')).
Proof.
  apply (set_level_rejects_in_sequence osc_1V 1%Q (1 # 2) 2%Q).
  - reflexivity.
  - right. intros [_ H]. apply H. reflexivity.
Defined.

(** C3 as stated fails: with the negative level in range and the positive
    level out of range, [cfg_neg] has changed when the error is raised. *)
Lemma set_level_writes_negative_before_rejecting :
  ~ (-1 <= 2 <= 1)%Q
  /\ (exists e, fst (set_level (1 # 2, 2)%Q osc_1V) = Raise e)
  /\ fst (getreg "cfg_neg" osc_1V) = Return 0
  /\ fst (getreg "cfg_neg" (snd (set_level (1 # 2, 2)%Q osc_1V)))
     = Return 16383
  /\ fst (getreg "cfg_neg" (snd (set_level (1 # 2, 2)%Q osc_1V)))
     <> fst (getreg "cfg_neg" osc_1V).
Proof.
  split; [intros [_ H]; apply H; reflexivity |].
  split; [eexists; reflexivity |].
  split; [reflexivity |]. split; [reflexivity |]. discriminate.
Qed.

(** The message of the rejection has two replacement fields and one
    argument, so formatting it is what raises. *)
Remark set_level_rejection_kind s r v0 v1 :
  input_range_ s = Some r ->
  in_unit v0 = false ->
  set_level (v0, v1) s = (Raise IndexError, s).
Proof.
  intros Hs E0. unfold set_level, bind, input_range. cbn [fst snd].
  rewrite Hs, E0. reflexivity.
Qed.

(** ** Register layout *)

Lemma fields_get_lower a dt off t o :
  fields_get a dt off = Some (t, o) -> off <= o.
Proof.
  revert off. induction dt as [| [name ty] dt IH]; intros off H; cbn in H.
  - discriminate H.
  - destruct (String.eqb a name).
    + injection H as _ <-. lia.
    + apply IH in H. lia.
Qed.

(** Two names that resolve to the same offset are the same name. *)
Lemma fields_get_inj a b dt off ta tb o :
  fields_get a dt off = Some (ta, o) ->
  fields_get b dt off = Some (tb, o) ->
  a = b.
Proof.
  revert off. induction dt as [| [name ty] dt IH]; intros off Ha Hb;
    cbn in Ha, Hb.
  - discriminate Ha.
  - destruct (String.eqb_spec a name) as [-> | Na];
      destruct (String.eqb_spec b name) as [-> | Nb].
    + reflexivity.
    + injection Ha as _ <-. apply fields_get_lower in Hb. lia.
    + injection Hb as _ <-. apply fields_get_lower in Ha. lia.
    + exact (IH _ Ha Hb).
Qed.

(** Frame lemmas in the form the later proofs use. *)
Lemma setreg_other_reg s a v b :
  b <> a -> fst (getreg b (snd (setreg a v s))) = fst (getreg b s).
Proof.
  unfold getreg, setreg. intros Hb.
  destruct (fields_get a regset_dtype 0) as [[ta oa] |] eqn:Ea;
    [| reflexivity].
  cbn [snd]. destruct (fields_get b regset_dtype 0) as [[tb ob] |] eqn:Eb;
    [| reflexivity].
  cbn [fst]. f_equal. apply getfield_setfield_other.
  intros ->. apply Hb. exact (fields_get_inj _ _ _ _ _ _ _ Eb Ea).
Qed.

Lemma getreg_state b s : snd (getreg b s) = s.
Proof. unfold getreg. now destruct (fields_get b regset_dtype 0) as [[t o] |]. Qed.

Lemma getreg_assign_input_range b value s :
  fst (getreg b (snd (assign_input_range value s))) = fst (getreg b s).
Proof.
  unfold getreg. now destruct (fields_get b regset_dtype 0) as [[t o] |].
Qed.



(** ** Input range: frame and invariant *)

Lemma set_filter_coeficients_frame s coefs b :
  ~ In b ["cfg_faa"; "cfg_fbb"; "cfg_fkk"; "cfg_fpp"] ->
  fst (getreg b (snd (set_filter_coeficients coefs s))) = fst (getreg b s)
  /\ table (snd (set_filter_coeficients coefs s)) = table s
  /\ input_range_ (snd (set_filter_coeficients coefs s)) = input_range_ s.
Proof.
  intros Hb. destruct coefs as [[[v0 v1] v2] v3].
  unfold set_filter_coeficients. repeat step. cbn [snd].
  split; [| split; reflexivity].
  assert (H : forall a off v s0, In a ["cfg_faa"; "cfg_fbb"; "cfg_fkk"; "cfg_fpp"] ->
              fields_get a regset_dtype 0 = Some (int32, off) ->
              fst (getreg b (setfield a off v s0)) = fst (getreg b s0)).
  { intros a off v s0 Ha Hoff.
    rewrite <- (setreg_other_reg s0 a v b) by (intros ->; contradiction).
    now rewrite (setreg_at a int32 off v s0 Hoff). }
  rewrite !H by (cbn; first [reflexivity | tauto]). reflexivity.
Qed.

(** Selecting an input range, accepted or not, changes what no register
    other than the four filter coefficients reads, and never the sample
    table. *)
Theorem set_input_range_frame s value b :
  ~ In b ["cfg_faa"; "cfg_fbb"; "cfg_fkk"; "cfg_fpp"] ->
  fst (getreg b (snd (set_input_range value s))) = fst (getreg b s)
  /\ table (snd (set_input_range value s)) = table s.
Proof.
  intros Hb. unfold set_input_range.
  destruct (py_in value ranges); [| split; reflexivity].
  unfold bind at 1. cbn [assign_input_range].
  destruct (dict_get_num filters value) as [coefs |].
  - destruct (set_filter_coeficients_frame
                (mkOsc (regset s) (bus s) (table s) (Some value)) coefs b Hb)
      as (Hreg & Htbl & _).
    split; [| exact Htbl].
    etransitivity; [exact Hreg |].
    apply (getreg_assign_input_range b value s).
  - unfold raise. cbn [snd].
    split; [apply (getreg_assign_input_range b value s) | reflexivity].
Qed.

Lemma set_input_range_frame_witness :
  fst (getreg "cfg_dec" (snd (set_input_range 20 osc_dec8)))
  = fst (getreg "cfg_dec" osc_dec8)
  /\ table (snd (set_input_range 20 osc_dec8)) = table osc_dec8.
Proof.
  apply (set_input_range_frame osc_dec8 20 "cfg_dec").
  cbn. intros H.
  repeat (destruct H as [H | H]; [discriminate H |]). exact H.
Defined.

(** An object that was constructed holds range 1.0 or 20.0, and keeps
    doing so across every later attempt to select a range, accepted or
    rejected, and across every register assignment. *)
Theorem range_ok_invariant :
  (forall regs tbl value s,
     init regs tbl value = (Return tt, s) -> range_ok s)
  /\ (forall s value, range_ok s -> range_ok (snd (set_input_range value s)))
  /\ (forall s a v, range_ok s -> range_ok (snd (setreg a v s))).
Proof.
  assert (Hset : forall s value,
            py_in value ranges = true ->
            input_range_ (snd (set_input_range value s)) = Some value).
  { intros s value Hin. unfold set_input_range. rewrite Hin.
    unfold bind at 1. cbn [assign_input_range].
    destruct (dict_get_num filters value) as [coefs |]; [| reflexivity].
    destruct coefs as [[[v0 v1] v2] v3].
    unfold set_filter_coeficients. repeat step. reflexivity. }
  assert (Hval : forall value, py_in value ranges = true ->
                               (value == 1 \/ value == 20)%Q).
  { intros value Hin. rewrite py_in_ranges in Hin.
    apply orb_true_iff in Hin. now rewrite !Qeq_bool_iff in Hin. }
  split; [| split].
  - intros regs tbl value s Hinit. unfold init in Hinit.
    destruct (py_in value ranges) eqn:Hin.
    + exists value. split; [| now apply Hval].
      rewrite <- (Hset (mkOsc regs [] tbl None) value Hin).
      now rewrite Hinit.
    + unfold set_input_range in Hinit. rewrite Hin in Hinit.
      discriminate Hinit.
  - intros s value Hok. destruct (py_in value ranges) eqn:Hin.
    + exists value. split; [now apply Hset | now apply Hval].
    + unfold set_input_range. rewrite Hin. exact Hok.
  - intros s a v (r & Hr & Hv). exists r. split; [| exact Hv].
    unfold setreg. now destruct (fields_get a regset_dtype 0) as [[t o] |].
Qed.

Lemma range_ok_invariant_witness :
  range_ok osc_1V /\ range_ok (snd (set_input_range 5 osc_1V)).
Proof.
  assert (H : range_ok osc_1V).
  { apply (proj1 range_ok_invariant blank_regs blank_table 1%Q osc_1V).
    reflexivity. }
  split; [exact H |].
  apply (proj1 (proj2 range_ok_invariant) osc_1V 5%Q H).
Defined.

(** ** More on the sample window *)

Lemma pointer_in_range_aux s :
  exists p, pointer s = (Return p, s) /\ 0 <= p < N.
Proof.
  unfold pointer. repeat step. eexists. split; [reflexivity |].
  apply Z.mod_pos_bound. reflexivity.
Qed.

(** The write pointer is always a valid index of the table, whatever the
    status counters hold, and reading it changes nothing. *)
Theorem pointer_in_range s :
  exists p, pointer s = (Return p, s) /\ 0 <= p < N.
Proof. exact (pointer_in_range_aux s). Qed.

(** Without an explicit pointer, [data] reads the window that ends at the
    hardware pointer: for [0 < size <= N] it returns [size] values, value
    [i] being the slot at [(pointer - size + i) mod N] times
    [input_range / DWr]. *)
Theorem data_default_pointer_window s r siz :
  List.length (table s) = Z.to_nat N ->
  input_range_ s = Some r ->
  0 < siz <= N ->
  exists p out,
    pointer s = (Return p, s)
    /\ data siz None s = (Return out, s)
    /\ Z.of_nat (List.length out) = siz
    /\ forall i, 0 <= i < siz ->
         nth_error out (Z.to_nat i)
         = Some (inject_Z (slot s ((p - siz + i) mod N))
                 * (r / inject_Z DWr))%Q.
Proof.
  intros Hlen Hr Hsiz.
  destruct (pointer_in_range_aux s) as (p & Hp & _).
  destruct (data_window s r siz p Hlen Hr Hsiz) as (out & Hout & Hl & Hnth).
  exists p, out. rewrite (data_default_pointer s siz p Hp). auto.
Qed.

Lemma data_default_pointer_window_witness :
  exists p out,
    pointer osc_ramp = (Return p, osc_ramp)
    /\ data 3 None osc_ramp = (Return out, osc_ramp)
    /\ Z.of_nat (List.length out) = 3
    /\ forall i, 0 <= i < 3 ->
         nth_error out (Z.to_nat i)
         = Some (inject_Z (slot osc_ramp ((p - 3 + i) mod N))
                 * (1 / inject_Z DWr))%Q.
Proof.
  apply (data_default_pointer_window osc_ramp 1%Q 3);
    [ reflexivity | reflexivity | unfold N; lia ].
Defined.








(** ** Plain register properties: masks, coefficients, hold-off *)

Ltac regs :=
  repeat first
    [ rewrite getfield_setfield_same
    | rewrite getfield_setfield_other by lia ].

(** Enable masks that fit a [uint32] are written to [cfg_rst], [cfg_str],
    [cfg_stp], [cfg_trg] in that order and read back unchanged; elements
    past the fourth are ignored. *)
Theorem mask_roundtrip s a b c d rest :
  0 <= a < 2 ^ 32 -> 0 <= b < 2 ^ 32 ->
  0 <= c < 2 ^ 32 -> 0 <= d < 2 ^ 32 ->
  exists s',
    set_mask (a :: b :: c :: d :: rest) s = (Return tt, s')
    /\ bus s' = bus s ++ [("cfg_rst", a); ("cfg_str", b);
                          ("cfg_stp", c); ("cfg_trg", d)]
    /\ mask s' = (Return [a; b; c; d], s').
Proof.
  intros Ha Hb Hc Hd.
  unfold set_mask, py_index. cbn [nth_error]. repeat step.
  eexists. split; [reflexivity |]. split.
  - cbn [bus setfield]. rewrite <- !app_assoc. cbn [app].
    unfold encode. rewrite !Z.mod_small by lia. reflexivity.
  - unfold mask. repeat step. unfold ret. regs.
    rewrite !decode_encode_uint32 by lia. reflexivity.
Qed.

Lemma mask_roundtrip_witness :
  exists s',
    set_mask [1; 0; 1; 1; 7] osc_1V = (Return tt, s')
    /\ bus s' = bus osc_1V ++ [("cfg_rst", 1); ("cfg_str", 0);
                               ("cfg_stp", 1); ("cfg_trg", 1)]
    /\ mask s' = (Return [1; 0; 1; 1], s').
Proof. apply (mask_roundtrip osc_1V 1 0 1 1 [7]); lia. Defined.



(** Filter coefficients that fit an [int32], negative ones included, are
    read back exactly as written. *)
Theorem filter_coeficients_roundtrip s v0 v1 v2 v3 :
  - 2 ^ 31 <= v0 < 2 ^ 31 -> - 2 ^ 31 <= v1 < 2 ^ 31 ->
  - 2 ^ 31 <= v2 < 2 ^ 31 -> - 2 ^ 31 <= v3 < 2 ^ 31 ->
  exists s',
    set_filter_coeficients (v0, v1, v2, v3) s = (Return tt, s')
    /\ filter_coeficients s' = (Return (v0, v1, v2, v3), s').
Proof.
  intros H0 H1 H2 H3.
  unfold set_filter_coeficients. repeat step.
  eexists. split; [reflexivity |].
  unfold filter_coeficients. repeat step. unfold ret. regs.
  rewrite !decode_encode_int32 by lia. reflexivity.
Qed.

Lemma filter_coeficients_roundtrip_witness :
  exists s',
    set_filter_coeficients (-1, 0x437C7, -0xd9999a, 0x2666) osc_1V
    = (Return tt, s')
    /\ filter_coeficients s'
       = (Return (-1, 0x437C7, -0xd9999a, 0x2666), s').
Proof.
  apply (filter_coeficients_roundtrip osc_1V (-1) 0x437C7 (-0xd9999a) 0x2666);
    lia.
Defined.

(** A hold-off count that fits a [uint32] is stored without any check and
    read back unchanged. *)
Theorem holdoff_roundtrip s value :
  0 <= value < 2 ^ 32 ->
  exists s',
    set_holdoff value s = (Return tt, s')
    /\ bus s' = bus s ++ [("cfg_hld", value)]
    /\ holdoff s' = (Return value, s').
Proof.
  intros H. unfold set_holdoff, holdoff. step.
  eexists. split; [reflexivity |]. split.
  - cbn [bus setfield]. unfold encode. now rewrite Z.mod_small by lia.
  - step. regs. now rewrite decode_encode_uint32 by lia.
Qed.

Lemma holdoff_roundtrip_witness :
  exists s',
    set_holdoff 125000 osc_1V = (Return tt, s')
    /\ bus s' = bus osc_1V ++ [("cfg_hld", 125000)]
    /\ holdoff s' = (Return 125000, s').
Proof. apply (holdoff_roundtrip osc_1V 125000). lia. Defined.

(** ** Trigger edge read-back *)

Lemma edges_codes value code :
  dict_get_str edges value = Some code -> code = 0 \/ code = 1.
Proof.
  unfold dict_get_str, edges, find. cbn [fst].
  repeat match goal with
         | |- context [String.eqb value ?k] =>
             destruct (String.eqb value k);
             [cbn; intros H; injection H as <-; auto |]
         end.
  discriminate.
Qed.

Lemma edge_eval s c :
  getreg "cfg_edg" s = (Return c, s) ->
  edge s = (match nth_error ["pos"; "neg"] (Z.to_nat c) with
            | Some name => Return name
            | None => Raise IndexError
            end, s).
Proof.
  intros H. unfold edge. rewrite (bind_Return _ _ _ _ _ H).
  now destruct (nth_error ["pos"; "neg"] (Z.to_nat c)).
Qed.

(** Whatever alias the edge was set with, the getter answers with the
    canonical name: ['pos'] for the aliases of code 0, ['neg'] for those
    of code 1. *)
Theorem edge_roundtrip_normalises s value code :
  dict_get_str edges value = Some code ->
  exists s',
    set_edge value s = (Return tt, s')
    /\ edge s' = (Return (if code =? 0 then "pos" else "neg"), s').
Proof.
  intros H. unfold set_edge. rewrite H. step.
  exists (setfield "cfg_edg" 56 code s). split; [reflexivity |].
  assert (Hc : getreg "cfg_edg" (setfield "cfg_edg" 56 code s)
               = (Return code, setfield "cfg_edg" 56 code s)).
  { step. regs.
    rewrite decode_encode_uint32 by (destruct (edges_codes _ _ H); lia).
    reflexivity. }
  rewrite (edge_eval _ _ Hc).
  destruct (edges_codes _ _ H) as [-> | ->]; reflexivity.
Qed.

Lemma edge_roundtrip_normalises_witness :
  exists s',
    set_edge "negative" osc_1V = (Return tt, s')
    /\ edge s' = (Return (if 1 =? 0 then "pos" else "neg"), s').
Proof.
  apply (edge_roundtrip_normalises osc_1V "negative" 1). reflexivity.
Defined.

(** The edge getter can only name the codes 0 and 1: when the register
    holds anything else it raises [IndexError]. *)
Theorem edge_unknown_code_raises s c :
  getreg "cfg_edg" s = (Return c, s) ->
  2 <= c ->
  edge s = (Raise IndexError, s).
Proof.
  intros H Hc. rewrite (edge_eval _ _ H).
  destruct (Z.to_nat c) as [| [| n]] eqn:E; try lia.
  cbn. now destruct n.
Qed.

Lemma edge_unknown_code_raises_witness :
  edge osc_edge5 = (Raise IndexError, osc_edge5).
Proof.
  apply (edge_unknown_code_raises osc_edge5 5); [reflexivity | lia].
Defined.

(** ** Run control *)


(** ** Trigger delays *)


Lemma sample_period_eval s d :
  decimation s = (Return d, s) ->
  sample_period s = (Return (1 / (FS / inject_Z d))%Q, s).
Proof.
  intros H.
  assert (Hr : sample_rate s = (Return (FS / inject_Z d)%Q, s))
    by (unfold sample_rate; rewrite (bind_Return _ _ _ _ _ H); reflexivity).
  unfold sample_period. rewrite (bind_Return _ _ _ _ _ Hr). reflexivity.
Qed.

Lemma period_pos d : 1 <= d -> (0 < 1 / (FS / inject_Z d))%Q.
Proof.
  intros H. destruct d as [| p | p]; try lia. reflexivity.
Qed.







Lemma status_eval attr s d c :
  getreg attr s = (Return c, s) ->
  decimation s = (Return d, s) ->
  (k <- getreg attr ;; p <- sample_period ;; ret (inject_Z k * p)%Q) s
  = (Return (inject_Z c * (1 / (FS / inject_Z d)))%Q, s).
Proof.
  intros Hc Hd. rewrite (bind_Return _ _ _ _ _ Hc).
  now rewrite (bind_Return _ _ _ _ _ (sample_period_eval s d Hd)).
Qed.

(** The delay status getters convert the whole status counter, overflow
    flag included (unlike [pointer], which masks it): with the top bit of
    [sts_pre] or [sts_pst] set, the time reported is at least [2^31]
    sample periods. *)
Theorem trigger_status_keeps_overflow_flag s d pre pst :
  decimation s = (Return d, s) ->
  1 <= d ->
  getreg "sts_pre" s = (Return pre, s) ->
  getreg "sts_pst" s = (Return pst, s) ->
  trigger_pre_status s
  = (Return (inject_Z pre * (1 / (FS / inject_Z d)))%Q, s)
  /\ trigger_post_status s
     = (Return (inject_Z pst * (1 / (FS / inject_Z d)))%Q, s)
  /\ (2 ^ 31 <= pre ->
      (inject_Z (2 ^ 31) * (1 / (FS / inject_Z d))
       <= inject_Z pre * (1 / (FS / inject_Z d)))%Q)
  /\ (2 ^ 31 <= pst ->
      (inject_Z (2 ^ 31) * (1 / (FS / inject_Z d))
       <= inject_Z pst * (1 / (FS / inject_Z d)))%Q).
Proof.
  intros Hd Hd1 Hpre Hpst.
  assert (Hp : (0 <= 1 / (FS / inject_Z d))%Q)
    by (apply Qlt_le_weak, period_pos; exact Hd1).
  split; [| split; [| split]].
  - exact (status_eval "sts_pre" s d pre Hpre Hd).
  - exact (status_eval "sts_pst" s d pst Hpst Hd).
  - intros H. apply Qmult_le_compat_r; [| exact Hp].
    unfold Qle, inject_Z. cbn [Qnum Qden]. lia.
  - intros H. apply Qmult_le_compat_r; [| exact Hp].
    unfold Qle, inject_Z. cbn [Qnum Qden]. lia.
Qed.

Lemma trigger_status_keeps_overflow_flag_witness :
  trigger_pre_status osc_counted
  = (Return (inject_Z 0x80000005 * (1 / (FS / inject_Z 1)))%Q, osc_counted)
  /\ trigger_post_status osc_counted
     = (Return (inject_Z 3 * (1 / (FS / inject_Z 1)))%Q, osc_counted)
  /\ (2 ^ 31 <= 0x80000005 ->
      (inject_Z (2 ^ 31) * (1 / (FS / inject_Z 1))
       <= inject_Z 0x80000005 * (1 / (FS / inject_Z 1)))%Q)
  /\ (2 ^ 31 <= 3 ->
      (inject_Z (2 ^ 31) * (1 / (FS / inject_Z 1))
       <= inject_Z 3 * (1 / (FS / inject_Z 1)))%Q).
Proof.
  apply (trigger_status_keeps_overflow_flag osc_counted 1 0x80000005 3);
    [ reflexivity | lia | reflexivity | reflexivity ].
Defined.

End Osc.
